(** * reverse_api: cost accounting and the run controller's sync lifecycle

    A shallow embedding of [src/reverse_api/pricing.py] and of the
    synchronisation lifecycle and prompt assembly of
    [src/reverse_api/base_engineer.py], with the properties the
    specification states about them.

    Conventions.
    - A Python [int] is a [Z]; a Python [float] is a binary64 value, the
      kernel's [float], with the IEEE operations of [PrimFloat].
    - A [dict] with string keys is a [gmap string _]; [d[k]] is [getitem],
      which raises [KeyError] on an absent key, and [d.get(k, default)] is
      [dict_get].
    - A call that can raise returns a [result]; statements are sequenced
      with [x ← e; k], so that the first exception raised is the one that
      comes out, in the order Python evaluates the operands. *)

From Stdlib Require Import ZArith Ascii String PrimFloat SpecFloat FloatOps.
From stdpp Require Import base option strings gmap list fin_maps pretty.

Set Warnings "-inexact-float".

(** ** Results of calls that may raise *)

Inductive result (E A : Type) : Type :=
| Ok (a : A)
| Raise (e : E).
Arguments Ok {E A} a.
Arguments Raise {E A} e.

Definition result_bind {E A B} (r : result E A) (k : A → result E B) : result E B :=
  match r with
  | Ok a => k a
  | Raise e => Raise e
  end.

Global Instance result_mret {E} : MRet (result E) := λ A a, Ok a.
Global Instance result_mbind {E} : MBind (result E) := λ A B k r, result_bind r k.

Definition is_Ok {E A} (r : result E A) : bool :=
  match r with Ok _ => true | Raise _ => false end.

(** ** Cost accounting: [pricing.py] *)

Module Pricing.

(** The exceptions the arithmetic and the subscripts of [calculate_cost]
    can raise. *)
Inductive PricingError : Type :=
| KeyError (key : string)
| OverflowError (message : string)
| ZeroDivisionError (message : string).

Abbreviation rates := (gmap string float).

(** [d[k]] *)
Definition getitem {V} (d : gmap string V) (k : string) : result PricingError V :=
  match d !! k with
  | Some v => Ok v
  | None => Raise (KeyError k)
  end.

(** [d.get(k, default)], where [k] may be [None], which is no key of a
    dict keyed by strings. *)
Definition dict_get {V} (d : gmap string V) (k : option string) (default : V) : V :=
  match k with
  | Some s => match d !! s with Some v => v | None => default end
  | None => default
  end.

(** An integer as an unrounded binary float, mantissa and exponent 0. *)
Definition Z2SF (n : Z) : spec_float :=
  match n with
  | Z0 => S754_zero false
  | Zpos p => S754_finite false p 0
  | Zneg p => S754_finite true p 0
  end.

(** [a / b] on two Python ints: the exact quotient rounded once to the
    nearest binary64 value (ties to even); a zero divisor and a quotient
    beyond the range of a float raise. *)
Definition int_truediv (a b : Z) : result PricingError float :=
  if (b =? 0)%Z then Raise (ZeroDivisionError "division by zero")
  else match SFdiv prec emax (Z2SF a) (Z2SF b) with
       | S754_infinity _ =>
           Raise (OverflowError "integer division result too large for a float")
       | q => Ok (SF2Prim q)
       end.

Definition MODEL_PRICING : gmap string rates :=
  <["claude-sonnet-4-5" :=
      <["input" := 3.00%float]> (<["output" := 15.00%float]>
      (<["cache_creation" := 3.75%float]> (<["cache_read" := 0.30%float]>
      (<["reasoning" := 15.00%float]> ∅))))]>
 (<["claude-opus-4-5" :=
      <["input" := 15.00%float]> (<["output" := 75.00%float]>
      (<["cache_creation" := 18.75%float]> (<["cache_read" := 1.50%float]>
      (<["reasoning" := 75.00%float]> ∅))))]>
 (<["claude-haiku-4-5" :=
      <["input" := 1.00%float]> (<["output" := 5.00%float]>
      (<["cache_creation" := 1.25%float]> (<["cache_read" := 0.10%float]>
      (<["reasoning" := 5.00%float]> ∅))))]>
 (<["google-gemini-3-flash" :=
      <["input" := 0.00015%float]> (<["output" := 0.0006%float]> ∅)]>
 (<["google-gemini-3-pro" :=
      <["input" := 0.0003%float]> (<["output" := 0.0012%float]> ∅)]>
  ∅)))).

(** [model_id in MODEL_PRICING] *)
Definition in_table (model_id : option string) : bool :=
  match model_id with
  | Some m => match MODEL_PRICING !! m with Some _ => true | None => false end
  | None => false
  end.

(** One parenthesised term of the sum, [tokens / 1_000_000 * pricing[key]]:
    the quotient is evaluated before the subscript. *)
Definition contribution (tokens : Z) (pricing : rates) (key : string)
  : result PricingError float :=
  q ← int_truediv tokens 1000000;
  rate ← getitem pricing key;
  mret (q * rate)%float.

(** [calculate_cost]; the five token counts default to 0 and [model_id] to
    [None] in the source. The default of [get] is evaluated before the
    call, the five terms from left to right; the additions of floats, which
    cannot raise, are written after them. *)
Definition calculate_cost (model_id : option string)
    (input_tokens output_tokens cache_creation_tokens cache_read_tokens
       reasoning_tokens : Z) : result PricingError float :=
  fallback ← getitem MODEL_PRICING "claude-sonnet-4-5";
  let pricing := dict_get MODEL_PRICING model_id fallback in
  t_input ← contribution input_tokens pricing "input";
  t_output ← contribution output_tokens pricing "output";
  t_creation ← contribution cache_creation_tokens pricing "cache_creation";
  t_read ← contribution cache_read_tokens pricing "cache_read";
  t_reasoning ← contribution reasoning_tokens pricing "reasoning";
  mret (t_input + t_output + t_creation + t_read + t_reasoning)%float.

End Pricing.

(** ** The run controller: [base_engineer.py] *)

Module Engineer.

(** A [pathlib.Path], held by its [str()]. *)
Abbreviation Path := string (only parsing).

(** An instance of Python's [Exception], the exceptions an
    [except Exception] clause catches: its class name and its [str()]. *)
Record Exception : Type := mkException { exc_class : string; exc_str : string }.

(** *** The notification sink, [self.ui]

    Modelled from the spec: [ClaudeUI] ([reverse_api/tui.py] is not among
    the sources). The spec gives the sink a slot for sync-success messages
    and one for sync-error messages, and leaves the rendering to the
    terminal layer; the model keeps what was sent, in order. *)
Inductive Notification : Type :=
| Flash (message : string)
| Error (message : string)
| Started (directory : string).

Record ClaudeUI : Type := mkClaudeUI { verbose : bool; shown : list Notification }.

Definition notify (n : Notification) (ui : ClaudeUI) : ClaudeUI :=
  {| verbose := verbose ui; shown := shown ui ++ [n] |}.

Definition sync_flash (message : string) : ClaudeUI → ClaudeUI := notify (Flash message).
Definition sync_error (message : string) : ClaudeUI → ClaudeUI := notify (Error message).
Definition sync_started (directory : string) : ClaudeUI → ClaudeUI := notify (Started directory).

(** *** Objects the controller holds *)

(** [MessageStore]: only its [messages_path] attribute is read here. *)
Record MessageStore : Type := mkMessageStore { messages_path : Path }.

(** A [FileSyncWatcher] object: the keyword arguments its constructor was
    given, and whatever state the class keeps besides ([internals]). A
    callback acts on the sink it is handed. *)
Record FileSyncWatcher (Internals : Type) : Type := mkFileSyncWatcher {
  source_dir : Path;
  dest_dir : Path;
  on_sync : string → ClaudeUI → ClaudeUI;
  on_error : string → ClaudeUI → ClaudeUI;
  debounce_ms : Z;
  internals : Internals
}.
Arguments mkFileSyncWatcher {Internals}.
Arguments source_dir {Internals}.
Arguments dest_dir {Internals}.
Arguments on_sync {Internals}.
Arguments on_error {Internals}.
Arguments debounce_ms {Internals}.
Arguments internals {Internals}.

(** The collaborators [base_engineer.py] imports and whose code is not
    among the sources, taken as they come: any implementation, any
    outcome. A method of the watcher returns its outcome and the state it
    leaves the object in. *)
Class Collaborators : Type := {
  (** the values of [usage_metadata] *)
  Any : Type;
  (** the dict [FileSyncWatcher.get_status] returns *)
  Status : Type;
  WatcherInternals : Type;
  (** [utils.generate_folder_name(prompt, sdk=sdk)] *)
  generate_folder_name : string → string → result Exception string;
  (** [utils.get_scripts_dir(run_id, output_dir)] *)
  get_scripts_dir : string → option string → Path;
  (** [MessageStore(run_id, output_dir)] *)
  MessageStore_init : string → option string → MessageStore;
  (** [path / name] and [path.parent] of [pathlib] *)
  Path_truediv : Path → string → Path;
  Path_parent : Path → Path;
  (** how many candidates the workspace allocator probes before it gives up *)
  probe_limit : nat;
  (** [FileSyncWatcher.__init__], on its five keyword arguments: the state
      a new watcher starts in *)
  FileSyncWatcher_init :
    Path → Path → (string → ClaudeUI → ClaudeUI) → (string → ClaudeUI → ClaudeUI) → Z →
    result Exception WatcherInternals;
  FileSyncWatcher_start :
    FileSyncWatcher WatcherInternals → result Exception unit * WatcherInternals;
  FileSyncWatcher_stop :
    FileSyncWatcher WatcherInternals → result Exception unit * WatcherInternals;
  FileSyncWatcher_get_status :
    FileSyncWatcher WatcherInternals → result Exception Status * WatcherInternals
}.

Section Controller.
Context `{env : Collaborators}.

Abbreviation Watcher := (FileSyncWatcher WatcherInternals).

(** The attributes [__init__] sets. *)
Record BaseEngineer : Type := mkBaseEngineer {
  run_id : string;
  har_path : Path;
  prompt : string;
  model : option string;
  additional_instructions : option string;
  scripts_dir : Path;
  ui : ClaudeUI;
  usage_metadata : gmap string Any;
  message_store : MessageStore;
  enable_sync : bool;
  sdk : string;
  is_fresh : bool;
  sync_watcher : option Watcher;
  local_scripts_dir : option Path
}.

(** [BaseEngineer.__init__]; [model], [additional_instructions] and
    [output_dir] default to [None], [verbose] to [True], [enable_sync] and
    [is_fresh] to [False], [sdk] to the string claude in the source. *)
Definition __init__ (run_id : string) (har_path : Path) (prompt : string)
    (model additional_instructions output_dir : option string)
    (verbose enable_sync : bool) (sdk : string) (is_fresh : bool) : BaseEngineer :=
  {| run_id := run_id;
     har_path := har_path;
     prompt := prompt;
     model := model;
     additional_instructions := additional_instructions;
     scripts_dir := get_scripts_dir run_id output_dir;
     ui := {| verbose := verbose; shown := [] |};
     usage_metadata := ∅;
     message_store := MessageStore_init run_id output_dir;
     enable_sync := enable_sync;
     sdk := sdk;
     is_fresh := is_fresh;
     sync_watcher := None;
     local_scripts_dir := None |}.


Definition set_ui (v : ClaudeUI) (self : BaseEngineer) : BaseEngineer :=
  {| run_id := run_id self; har_path := har_path self; prompt := prompt self;
     model := model self; additional_instructions := additional_instructions self;
     scripts_dir := scripts_dir self; ui := v;
     usage_metadata := usage_metadata self; message_store := message_store self;
     enable_sync := enable_sync self; sdk := sdk self; is_fresh := is_fresh self;
     sync_watcher := sync_watcher self; local_scripts_dir := local_scripts_dir self |}.

Definition set_sync_watcher (v : option Watcher) (self : BaseEngineer) : BaseEngineer :=
  {| run_id := run_id self; har_path := har_path self; prompt := prompt self;
     model := model self; additional_instructions := additional_instructions self;
     scripts_dir := scripts_dir self; ui := ui self;
     usage_metadata := usage_metadata self; message_store := message_store self;
     enable_sync := enable_sync self; sdk := sdk self; is_fresh := is_fresh self;
     sync_watcher := v; local_scripts_dir := local_scripts_dir self |}.

Definition set_local_scripts_dir (v : option Path) (self : BaseEngineer) : BaseEngineer :=
  {| run_id := run_id self; har_path := har_path self; prompt := prompt self;
     model := model self; additional_instructions := additional_instructions self;
     scripts_dir := scripts_dir self; ui := ui self;
     usage_metadata := usage_metadata self; message_store := message_store self;
     enable_sync := enable_sync self; sdk := sdk self; is_fresh := is_fresh self;
     sync_watcher := sync_watcher self; local_scripts_dir := v |}.

(** *** The state a method runs in

    The controller itself, and what lies outside it: the working
    directory of the process, the directories of the file system with
    the names of their entries, and the calls made to [FileSyncWatcher]
    so far, each with the object it was made on (for the constructor, the
    object it made). *)
Inductive WatcherMethod : Type := Init | Start | Stop | GetStatus.

Record State : Type := mkState {
  self : BaseEngineer;
  cwd : Path;
  fs : gmap Path (list string);
  calls : list (WatcherMethod * Watcher)
}.

Definition with_self (f : BaseEngineer → BaseEngineer) (s : State) : State :=
  {| self := f (self s); cwd := cwd s; fs := fs s; calls := calls s |}.

Definition with_fs (f : gmap Path (list string) → gmap Path (list string)) (s : State) : State :=
  {| self := self s; cwd := cwd s; fs := f (fs s); calls := calls s |}.

Definition record_call (m : WatcherMethod) (w : Watcher) (s : State) : State :=
  {| self := self s; cwd := cwd s; fs := fs s; calls := calls s ++ [(m, w)] |}.

(** A statement: it ends normally or raises, and leaves a state either way. *)
Definition M (A : Type) : Type := State → result Exception A * State.

Definition M_ret {A} (a : A) : M A := λ s, (Ok a, s).

Definition M_bind {A B} (m : M A) (k : A → M B) : M B :=
  λ s, match m s with
       | (Ok a, s') => k a s'
       | (Raise e, s') => (Raise e, s')
       end.

Definition raise {A} (e : Exception) : M A := λ s, (Raise e, s).

Global Instance M_mret : MRet M := λ A, M_ret.
Global Instance M_mbind : MBind M := λ A B k m, M_bind m k.

(** [try: body / except Exception as e: handler e / finally: final]. The
    [finally] suite runs whatever came before it; an exception still
    pending after it comes out, unless the suite raises one of its own. *)
Definition try_except_finally {A} (body : M A) (handler : Exception → M A)
    (final : M unit) : M A :=
  λ s, let '(r, s1) := body s in
       let '(r', s2) := match r with
                        | Ok a => (Ok a, s1)
                        | Raise e => handler e s1
                        end in
       match final s2 with
       | (Ok _, s3) => (r', s3)
       | (Raise e, s3) => (Raise e, s3)
       end.

(** [self.attr] *)
Definition getattr {A} (attr : BaseEngineer → A) : M A := λ s, (Ok (attr (self s)), s).

(** [self.attr = v], through the setter of [attr] *)
Definition setattr (setter : BaseEngineer → BaseEngineer) : M unit :=
  λ s, (Ok tt, with_self setter s).

(** [self.ui.method(...)] *)
Definition ui_call (method : ClaudeUI → ClaudeUI) : M unit :=
  λ s, (Ok tt, with_self (λ e, set_ui (method (ui e)) e) s).

(** An object is true unless its class says otherwise, and [None] is
    false: [FileSyncWatcher] is taken to define neither [__bool__] nor
    [__len__]. *)
Definition truthy {A} (o : option A) : bool :=
  match o with Some _ => true | None => false end.

(** [self.sync_watcher.method()]: the attribute is read, the method runs
    on the object found there and leaves it in a new state. On [None] the
    attribute lookup of the method raises. *)
Definition watcher_call {A} (m : WatcherMethod) (name : string)
    (method : Watcher → result Exception A * WatcherInternals) : M A :=
  λ s, match sync_watcher (self s) with
       | Some w =>
           let '(r, i) := method w in
           let w' := mkFileSyncWatcher (source_dir w) (dest_dir w) (on_sync w)
                       (on_error w) (debounce_ms w) i in
           (r, with_self (set_sync_watcher (Some w')) (record_call m w s))
       | None =>
           (Raise (mkException "AttributeError"
                     ("'NoneType' object has no attribute '" +:+ name +:+ "'")), s)
       end.

(** [FileSyncWatcher(source_dir=.., dest_dir=.., on_sync=.., on_error=..,
    debounce_ms=..)] *)
Definition FileSyncWatcher_new (source_dir dest_dir : Path)
    (on_sync on_error : string → ClaudeUI → ClaudeUI) (debounce_ms : Z) : M Watcher :=
  λ s, match FileSyncWatcher_init source_dir dest_dir on_sync on_error debounce_ms with
       | Ok i =>
           let w := mkFileSyncWatcher source_dir dest_dir on_sync on_error debounce_ms i in
           (Ok w, record_call Init w s)
       | Raise e => (Raise e, s)
       end.

(** A call to a collaborator that touches nothing of the state. *)
Definition call {A} (r : result Exception A) : M A := λ s, (r, s).

(** [Path.cwd()] *)
Definition Path_cwd : M Path := λ s, (Ok (cwd s), s).

(** *** The workspace allocator

    Modelled from the spec: [get_available_directory] ([reverse_api/sync.py]
    is not among the sources). The candidate [parent/base_name] is taken
    when it does not exist (it is created) or exists and is empty (it is
    reused); otherwise the suffixed candidates [base_name-2], [base_name-3],
    ... are probed in increasing order, and the first that is missing or
    empty is taken, created if missing. The probing is bounded
    ([probe_limit] candidates); past the bound the allocator fails with a
    resource-exhaustion error, for which the spec names no class. *)
Definition is_free (fs : gmap Path (list string)) (p : Path) : bool :=
  match fs !! p with
  | None => true
  | Some entries => bool_decide (entries = [])
  end.

Definition candidate (base_name : string) (k : nat) : string :=
  if decide (k ≤ 1) then base_name else base_name +:+ "-" +:+ pretty k.

Fixpoint probe (fs : gmap Path (list string)) (parent : Path) (base_name : string)
    (k fuel : nat) : option Path :=
  match fuel with
  | O => None
  | S fuel' =>
      let p := Path_truediv parent (candidate base_name k) in
      if is_free fs p then Some p else probe fs parent base_name (S k) fuel'
  end.

Definition mkdir (p : Path) (fs : gmap Path (list string)) : gmap Path (list string) :=
  match fs !! p with
  | None => <[p := []]> fs
  | Some _ => fs
  end.

Definition get_available_directory (parent : Path) (base_name : string) : M Path :=
  λ s, match probe (fs s) parent base_name 1 probe_limit with
       | Some p => (Ok p, with_fs (mkdir p) s)
       | None =>
           (Raise (mkException "RuntimeError" "no available directory"), s)
       end.

(** *** The methods of [BaseEngineer] *)

(** [start_sync] *)
Definition start_sync : M unit :=
  enabled ← getattr enable_sync;
  if negb enabled then mret tt
  else
    self_prompt ← getattr prompt;
    self_sdk ← getattr sdk;
    base_name ← call (generate_folder_name self_prompt self_sdk);
    here ← Path_cwd;
    let scripts_base_path := Path_truediv here "scripts" in
    local_dir ← get_available_directory scripts_base_path base_name;
    setattr (set_local_scripts_dir (Some local_dir));;
    let on_sync := λ message, sync_flash message in
    let on_error := λ message, sync_error message in
    self_scripts_dir ← getattr scripts_dir;
    w ← FileSyncWatcher_new self_scripts_dir local_dir on_sync on_error 500;
    setattr (set_sync_watcher (Some w));;
    watcher_call Start "start" FileSyncWatcher_start;;
    ui_call (sync_started local_dir).

(** [stop_sync] *)
Definition stop_sync : M unit :=
  held ← getattr sync_watcher;
  if truthy held then
    try_except_finally
      (watcher_call Stop "stop" FileSyncWatcher_stop)
      (λ e, ui_call (sync_error ("Failed to stop sync watcher: " +:+ exc_str e)))
      (setattr (set_sync_watcher None))
  else mret tt.

(** [get_sync_status] *)
Definition get_sync_status : M (option Status) :=
  held ← getattr sync_watcher;
  if truthy held then
    status ← watcher_call GetStatus "get_status" FileSyncWatcher_get_status;
    mret (Some status)
  else mret None.


(** *** The analysis prompt *)

(** The double quote character, for the JSON examples of the prompt. *)
Definition dquote : string := String (ascii_of_nat 34) EmptyString.

(** [str(b)] for a [bool] *)
Definition str_bool (b : bool) : string := if b then "True" else "False".

(** [str.lower], on the ASCII letters *)
Definition lower_ascii (c : ascii) : ascii :=
  let n := nat_of_ascii c in
  if (65 <=? n)%nat && (n <=? 90)%nat then ascii_of_nat (n + 32) else c.

Fixpoint lower (s : string) : string :=
  match s with
  | EmptyString => EmptyString
  | String c s' => String (lower_ascii c) (lower s')
  end.

(** The f-string [base_prompt] starts as. *)
Definition base_prompt_text (self : BaseEngineer) : string :=
  "You are tasked with analyzing a HAR (HTTP Archive) file to reverse engineer API calls,
         and generate production-ready Python code that replicates those calls.

Here is the HAR file path you need to analyze:
<har_path>
" +:+ har_path self +:+ "
</har_path>

Here is the original user prompt with context about what they're trying to accomplish:
<user_prompt>
" +:+ prompt self +:+ "
</user_prompt>

Here is the output directory where you should save your generated files:
<output_dir>
" +:+ scripts_dir self +:+ "
</output_dir>

**IMPORTANT: You have access to the AskUserQuestion tool to ask clarifying questions during your analysis.**
Use this tool when you need to clarify functional requirements, prioritize features, choose between implementation approaches, or gather any other information that would help you generate better code.

Your task is to:

1. **Read and analyze the HAR file** to understand all API calls that were captured. Look for:
   - HTTP methods (GET, POST, PUT, DELETE, etc.)
   - Request URLs and endpoints
   - Request headers (especially authentication-related ones)
   - Request bodies and parameters
   - Response structures
   - Response status codes

2. **Identify authentication patterns** such as:
   - Cookies and session tokens
   - Authorization headers (Bearer tokens, API keys, etc.)
   - CSRF tokens or other security mechanisms
   - Custom authentication headers

3. **Extract request/response patterns** for each distinct endpoint:
   - Required vs optional parameters
   - Data formats (JSON, form data, etc.)
   - Query parameters vs body parameters
   - Response data structures

4. **Ask clarifying questions using AskUserQuestion** if needed:
   - When multiple authentication methods are found, ask which to prioritize
   - If uncertain about feature priorities, ask the user
   - When implementation approaches are ambiguous, ask for preferences
   - Use the tool for any clarifications that would improve the final code

5. **Generate a Python script** that replicates these API calls with the following requirements:
   - Use the `requests` library as the default choice
   - Include proper authentication handling (sessions, headers, tokens)
   - Create separate functions for each distinct API endpoint
   - Include type hints for all function parameters and return values
   - Write comprehensive docstrings for each function
   - Implement proper error handling with try-except blocks
   - Add logging for debugging purposes
   - Make the code production-ready and maintainable
   - Include a main section with example usage

6. **Create documentation**:
   - Generate a README.md file that explains:
     - What APIs were discovered
     - How authentication works
     - How to use each function
     - Example usage
     - Any limitations or requirements

7. **Test your implementation**:
   - After generating the code, test it to ensure it works
   - You have up to 5 attempts to fix any issues
   - If the initial implementation fails, analyze the error and try again
   - Keep in mind that some websites have bot detection mechanisms

8. **Handle bot detection**:
   - If you encounter bot detection, CAPTCHA, or anti-scraping measures with `requests`
   - Consider switching to Playwright with CDP (Chrome DevTools Protocol)
   - Use the real user browser context to bypass detection
   - Maintain the same code quality standards regardless of approach

Before generating your code, use a scratchpad to plan your approach:

<scratchpad>
In your scratchpad:
- Summarize the key API endpoints found in the HAR file
- Note the authentication mechanism being used
- Identify any patterns or commonalities between requests
- Plan the structure of your Python script
- Consider potential issues (rate limiting, bot detection, etc.)
- Decide whether `requests` will be sufficient or if Playwright is needed
- Identify any ambiguities or questions you should ask the user using AskUserQuestion
</scratchpad>

After your analysis, generate the files:

1. Save the Python script to: " +:+ scripts_dir self +:+ "/api_client.py
2. Save the documentation to: " +:+ scripts_dir self +:+ "/README.md

If your first attempt doesn't work, analyze what went wrong and try again. Document each attempt and what you learned.

<attempt_log>
For each attempt (up to 5), document:
- Attempt number
- What approach you tried
- What error or issue occurred (if any)
- What you changed for the next attempt
</attempt_log>

After testing, provide your final response with:
- A summary of the APIs discovered
- The authentication method used
- Whether the implementation works
- Any limitations or caveats
- The paths to the generated files

Your final output should confirm that the files have been created and provide a brief summary of what was accomplished.
Do not include the full code in your response - just confirm the files were saved and summarize the key findings.
".

(** The f-string added for [additional_instructions]. *)
Definition additional_instructions_text (additional_instructions : string) : string :=
  "

Additional instructions:
" +:+ additional_instructions.

(** The guidance on the AskUserQuestion tool, a plain string. *)
Definition ask_user_question_guidance : string :=
  "

## Interactive Clarification with AskUserQuestion

You have access to the `AskUserQuestion` tool to ask clarifying questions during analysis:

<ask_user_question_guidelines>
Use AskUserQuestion when uncertain about:
- Functional requirements or expected behavior
- Which features to prioritize
- Implementation approach choices
- API authentication details the user might know
- Specific use cases or workflows to support

The tool accepts a list of questions with the following structure:

```json
{
  " +:+ dquote +:+ "questions" +:+ dquote +:+ ": [
    {
      " +:+ dquote +:+ "question" +:+ dquote +:+ ": " +:+ dquote +:+ "Which authentication should I prioritize?" +:+ dquote +:+ ",
      " +:+ dquote +:+ "header" +:+ dquote +:+ ": " +:+ dquote +:+ "Authentication" +:+ dquote +:+ ",
      " +:+ dquote +:+ "options" +:+ dquote +:+ ": [
        {" +:+ dquote +:+ "label" +:+ dquote +:+ ": " +:+ dquote +:+ "Cookie-based session" +:+ dquote +:+ ", " +:+ dquote +:+ "description" +:+ dquote +:+ ": " +:+ dquote +:+ "Uses session cookies for auth" +:+ dquote +:+ "},
        {" +:+ dquote +:+ "label" +:+ dquote +:+ ": " +:+ dquote +:+ "Bearer token" +:+ dquote +:+ ", " +:+ dquote +:+ "description" +:+ dquote +:+ ": " +:+ dquote +:+ "Uses JWT or API tokens" +:+ dquote +:+ "},
        {" +:+ dquote +:+ "label" +:+ dquote +:+ ": " +:+ dquote +:+ "Both" +:+ dquote +:+ ", " +:+ dquote +:+ "description" +:+ dquote +:+ ": " +:+ dquote +:+ "Auto-detect and support both methods" +:+ dquote +:+ "}
      ],
      " +:+ dquote +:+ "multiSelect" +:+ dquote +:+ ": false
    }
  ]
}
```

Question Structure:
- `question` (required): The question text
- `header` (optional): Short category label for context
- `options` (required): List of choices with labels and descriptions
- `multiSelect` (optional): true for checkbox selection, false for single select (default: false)

Examples:

1. Single-select question (authentication method):
```json
{
  " +:+ dquote +:+ "questions" +:+ dquote +:+ ": [{
    " +:+ dquote +:+ "question" +:+ dquote +:+ ": " +:+ dquote +:+ "Which authentication method should I implement?" +:+ dquote +:+ ",
    " +:+ dquote +:+ "header" +:+ dquote +:+ ": " +:+ dquote +:+ "Auth Method" +:+ dquote +:+ ",
    " +:+ dquote +:+ "options" +:+ dquote +:+ ": [
      {" +:+ dquote +:+ "label" +:+ dquote +:+ ": " +:+ dquote +:+ "Cookie-based" +:+ dquote +:+ ", " +:+ dquote +:+ "description" +:+ dquote +:+ ": " +:+ dquote +:+ "Session cookies" +:+ dquote +:+ "},
      {" +:+ dquote +:+ "label" +:+ dquote +:+ ": " +:+ dquote +:+ "Bearer token" +:+ dquote +:+ ", " +:+ dquote +:+ "description" +:+ dquote +:+ ": " +:+ dquote +:+ "JWT tokens" +:+ dquote +:+ "},
      {" +:+ dquote +:+ "label" +:+ dquote +:+ ": " +:+ dquote +:+ "Both" +:+ dquote +:+ ", " +:+ dquote +:+ "description" +:+ dquote +:+ ": " +:+ dquote +:+ "Support both methods" +:+ dquote +:+ "}
    ],
    " +:+ dquote +:+ "multiSelect" +:+ dquote +:+ ": false
  }]
}
```

2. Multi-select question (features):
```json
{
  " +:+ dquote +:+ "questions" +:+ dquote +:+ ": [{
    " +:+ dquote +:+ "question" +:+ dquote +:+ ": " +:+ dquote +:+ "Which features should I include?" +:+ dquote +:+ ",
    " +:+ dquote +:+ "header" +:+ dquote +:+ ": " +:+ dquote +:+ "Features" +:+ dquote +:+ ",
    " +:+ dquote +:+ "options" +:+ dquote +:+ ": [
      {" +:+ dquote +:+ "label" +:+ dquote +:+ ": " +:+ dquote +:+ "Retry logic" +:+ dquote +:+ ", " +:+ dquote +:+ "description" +:+ dquote +:+ ": " +:+ dquote +:+ "Auto-retry failed requests" +:+ dquote +:+ "},
      {" +:+ dquote +:+ "label" +:+ dquote +:+ ": " +:+ dquote +:+ "Rate limiting" +:+ dquote +:+ ", " +:+ dquote +:+ "description" +:+ dquote +:+ ": " +:+ dquote +:+ "Throttle requests" +:+ dquote +:+ "},
      {" +:+ dquote +:+ "label" +:+ dquote +:+ ": " +:+ dquote +:+ "Caching" +:+ dquote +:+ ", " +:+ dquote +:+ "description" +:+ dquote +:+ ": " +:+ dquote +:+ "Cache responses" +:+ dquote +:+ "}
    ],
    " +:+ dquote +:+ "multiSelect" +:+ dquote +:+ ": true
  }]
}
```

3. Multiple questions in one call:
```json
{
  " +:+ dquote +:+ "questions" +:+ dquote +:+ ": [
    {
      " +:+ dquote +:+ "question" +:+ dquote +:+ ": " +:+ dquote +:+ "Which authentication method?" +:+ dquote +:+ ",
      " +:+ dquote +:+ "header" +:+ dquote +:+ ": " +:+ dquote +:+ "Auth" +:+ dquote +:+ ",
      " +:+ dquote +:+ "options" +:+ dquote +:+ ": [
        {" +:+ dquote +:+ "label" +:+ dquote +:+ ": " +:+ dquote +:+ "Cookies" +:+ dquote +:+ ", " +:+ dquote +:+ "description" +:+ dquote +:+ ": " +:+ dquote +:+ "Session-based" +:+ dquote +:+ "},
        {" +:+ dquote +:+ "label" +:+ dquote +:+ ": " +:+ dquote +:+ "Tokens" +:+ dquote +:+ ", " +:+ dquote +:+ "description" +:+ dquote +:+ ": " +:+ dquote +:+ "Token-based" +:+ dquote +:+ "}
      ],
      " +:+ dquote +:+ "multiSelect" +:+ dquote +:+ ": false
    },
    {
      " +:+ dquote +:+ "question" +:+ dquote +:+ ": " +:+ dquote +:+ "Which features to enable?" +:+ dquote +:+ ",
      " +:+ dquote +:+ "header" +:+ dquote +:+ ": " +:+ dquote +:+ "Features" +:+ dquote +:+ ",
      " +:+ dquote +:+ "options" +:+ dquote +:+ ": [
        {" +:+ dquote +:+ "label" +:+ dquote +:+ ": " +:+ dquote +:+ "Retry" +:+ dquote +:+ ", " +:+ dquote +:+ "description" +:+ dquote +:+ ": " +:+ dquote +:+ "Auto-retry" +:+ dquote +:+ "},
        {" +:+ dquote +:+ "label" +:+ dquote +:+ ": " +:+ dquote +:+ "Logging" +:+ dquote +:+ ", " +:+ dquote +:+ "description" +:+ dquote +:+ ": " +:+ dquote +:+ "Debug logs" +:+ dquote +:+ "}
      ],
      " +:+ dquote +:+ "multiSelect" +:+ dquote +:+ ": true
    }
  ]
}
```

Guidelines:
- Ask 1-3 well-targeted questions that materially impact implementation
- Always provide `options` with clear labels and descriptions
- Use `multiSelect: true` when multiple options can be selected
- Use meaningful `header` values to provide context
- The user's answers will be returned in the tool result
</ask_user_question_guidelines>
".

(** The f-string [tag_context]. *)
Definition tag_context_text (self : BaseEngineer) : string :=
  "
## Tag-Based Workflows

This session uses tag-based context loading:

- **@id <run_id>**: Re-engineer mode active
  - Target run: " +:+ run_id self +:+ "
  - HAR location: " +:+ Path_parent (har_path self) +:+ "
  - Existing scripts: " +:+ scripts_dir self +:+ "
  - Message history: " +:+ Path_parent (messages_path (message_store self)) +:+ " (available for reference if needed)
  - Fresh mode: " +:+ lower (str_bool (is_fresh self)) +:+ "

By default, treat this as an iterative refinement. The user's prompt describes
changes or improvements to make to the existing script. If fresh mode is enabled,
ignore previous implementation and start from scratch.

Note: Full message history is available at the messages path above if you need
to understand previous context, but it is not automatically loaded into this
conversation.
".

(** [_build_analysis_prompt]; [additional_instructions] is added when it
    is neither [None] nor empty. *)
Definition _build_analysis_prompt (self : BaseEngineer) : string :=
  let base_prompt := base_prompt_text self in
  let base_prompt :=
    match additional_instructions self with
    | Some text =>
        if bool_decide (text = "") then base_prompt
        else base_prompt +:+ additional_instructions_text text
    | None => base_prompt
    end in
  let base_prompt := base_prompt +:+ ask_user_question_guidance in
  let tag_context := tag_context_text self in
  base_prompt +:+ tag_context.

(** *** Reading a text

    [find needle text] splits [text] around the first place [needle]
    stands in it; [contains text needle] says there is such a place. *)
Fixpoint strip_prefix (p s : string) : option string :=
  match p, s with
  | EmptyString, _ => Some s
  | String a p', String b s' => if Ascii.eqb a b then strip_prefix p' s' else None
  | String _ _, EmptyString => None
  end.

Fixpoint find (needle text : string) : option (string * string) :=
  match strip_prefix needle text with
  | Some rest => Some (EmptyString, rest)
  | None =>
      match text with
      | EmptyString => None
      | String c text' =>
          match find needle text' with
          | Some (before, rest) => Some (String c before, rest)
          | None => None
          end
      end
  end.

Definition contains (text needle : string) : Prop :=
  ∃ before rest, text = before +:+ needle +:+ rest.

(** [s] between double quotes, as a JSON key or string is written. *)
Definition quoted (s : string) : string := dquote +:+ s +:+ dquote.

End Controller.

(** *** Stand-ins for the collaborators

    An implementation of [Collaborators] to run the methods on: a folder
    name is the sdk name followed by [-client], paths are joined with a
    slash, a watcher keeps the number of calls that changed it, and [stop]
    ends as [teardown] says. *)
Definition stand_in (teardown : result Exception unit) : Collaborators :=
  {| Any := Z;
     Status := nat;
     WatcherInternals := nat;
     generate_folder_name := λ prompt sdk, Ok (sdk +:+ "-client");
     get_scripts_dir := λ run_id output_dir, "/runs/" +:+ run_id +:+ "/scripts";
     MessageStore_init := λ run_id output_dir,
       {| messages_path := "/runs/" +:+ run_id +:+ "/messages.jsonl" |};
     Path_truediv := λ p name, p +:+ "/" +:+ name;
     Path_parent := λ p, p;
     probe_limit := 100;
     FileSyncWatcher_init := λ _ _ _ _ _, Ok 0;
     FileSyncWatcher_start := λ w, (Ok tt, S (internals w));
     FileSyncWatcher_stop := λ w, (teardown, S (internals w));
     FileSyncWatcher_get_status := λ w, (Ok (internals w), internals w) |}.

(** A controller made by [__init__] on the stand-ins, and a state around
    it: the process runs in [/work], where the directory the allocator
    tries first already holds a file. *)
Definition example_engineer (teardown : result Exception unit) (enable_sync : bool)
  : @BaseEngineer (stand_in teardown) :=
  @__init__ (stand_in teardown) "run42" "/captures/run42.har" "fetch the orders API"
    None None None true enable_sync "claude" false.

Definition example_state (teardown : result Exception unit) (enable_sync : bool)
  : @State (stand_in teardown) :=
  {| self := example_engineer teardown enable_sync;
     cwd := "/work";
     fs := {[ "/work/scripts/claude-client" := ["api_client.py"] ]};
     calls := [] |}.


(** Stand-ins on which the name derivation and the watcher's constructor
    end as told; the rest is as in [stand_in], with a [stop] that
    returns. *)
Definition faulty_stand_in (name : result Exception string)
    (init : result Exception nat) : Collaborators :=
  {| Any := Z;
     Status := nat;
     WatcherInternals := nat;
     generate_folder_name := λ prompt sdk, name;
     get_scripts_dir := λ run_id output_dir, "/runs/" +:+ run_id +:+ "/scripts";
     MessageStore_init := λ run_id output_dir,
       {| messages_path := "/runs/" +:+ run_id +:+ "/messages.jsonl" |};
     Path_truediv := λ p name, p +:+ "/" +:+ name;
     Path_parent := λ p, p;
     probe_limit := 100;
     FileSyncWatcher_init := λ _ _ _ _ _, init;
     FileSyncWatcher_start := λ w, (Ok tt, S (internals w));
     FileSyncWatcher_stop := λ w, (Ok tt, S (internals w));
     FileSyncWatcher_get_status := λ w, (Ok (internals w), internals w) |}.

Definition faulty_state (name : result Exception string) (init : result Exception nat)
  : @State (faulty_stand_in name init) :=
  {| self := @__init__ (faulty_stand_in name init) "run42" "/captures/run42.har"
               "fetch the orders API" None (Some "Use httpx.") None true true "claude" true;
     cwd := "/work";
     fs := ∅;
     calls := [] |}.

End Engineer.

(** * Properties of the cost accounting *)

Module PricingFacts.
Import Pricing.

(** The entries of the table, by name. *)
Lemma MODEL_PRICING_keys (m : string) :
  m ∈ ["claude-sonnet-4-5"; "claude-opus-4-5"; "claude-haiku-4-5";
       "google-gemini-3-flash"; "google-gemini-3-pro"]
  ∨ MODEL_PRICING !! m = None.
Proof.
  unfold MODEL_PRICING.
  repeat match goal with
  | |- _ ∨ <[?k := _]> _ !! m = None =>
      destruct (decide (k = m)) as [<-|?];
      [left; set_solver | rewrite lookup_insert_ne by done]
  end.
  right. apply lookup_empty.
Qed.

(** The subscript that reads the fallback entry finds it. *)
Lemma getitem_fallback :
  ∃ entry, getitem MODEL_PRICING "claude-sonnet-4-5" = Ok entry.
Proof. eexists. reflexivity. Qed.

(** What [model_id] contributes to the cost is the entry it resolves to. *)
Lemma calculate_cost_resolved (model_id model_id' : option string) (fallback : rates)
    (i o cc cr r : Z) :
  getitem MODEL_PRICING "claude-sonnet-4-5" = Ok fallback →
  dict_get MODEL_PRICING model_id fallback = dict_get MODEL_PRICING model_id' fallback →
  calculate_cost model_id i o cc cr r = calculate_cost model_id' i o cc cr r.
Proof.
  intros Hfb Heq. unfold calculate_cost. rewrite Hfb. simpl.
  unfold mbind, result_mbind. simpl. rewrite Heq. reflexivity.
Qed.

(** A term of the sum raises as soon as the rate it reads is missing. *)
Lemma contribution_missing_rate (tokens : Z) (pricing : rates) (key : string) :
  pricing !! key = None → is_Ok (contribution tokens pricing key) = false.
Proof.
  intros Hnone. unfold contribution, getitem. rewrite Hnone.
  destruct (int_truediv tokens 1000000); reflexivity.
Qed.

(** An entry without a [cache_creation] rate prices nothing: the third
    term of the sum raises, if no earlier one did. *)
Lemma calculate_cost_missing_rate (m : string) (entry : rates) (i o cc cr r : Z) :
  MODEL_PRICING !! m = Some entry →
  entry !! "cache_creation" = None →
  is_Ok (calculate_cost (Some m) i o cc cr r) = false.
Proof.
  intros Hm Hnone. unfold calculate_cost.
  destruct getitem_fallback as [fb ->]. simpl. rewrite Hm.
  unfold mbind, result_mbind.
  destruct (contribution i entry "input"); [simpl|reflexivity].
  destruct (contribution o entry "output"); [simpl|reflexivity].
  pose proof (contribution_missing_rate cc entry "cache_creation" Hnone) as Hc.
  destruct (contribution cc entry "cache_creation"); [discriminate|reflexivity].
Qed.

(** With the five rates in the entry and five quotients in the range of a
    float, the cost is the sum of the five terms, added from the left. *)
Lemma calculate_cost_complete (m : string) (entry : rates) (i o cc cr r : Z)
    (ri ro rcc rcr rr qi qo qcc qcr qr : float) :
  MODEL_PRICING !! m = Some entry →
  entry !! "input" = Some ri → entry !! "output" = Some ro →
  entry !! "cache_creation" = Some rcc → entry !! "cache_read" = Some rcr →
  entry !! "reasoning" = Some rr →
  int_truediv i 1000000 = Ok qi → int_truediv o 1000000 = Ok qo →
  int_truediv cc 1000000 = Ok qcc → int_truediv cr 1000000 = Ok qcr →
  int_truediv r 1000000 = Ok qr →
  calculate_cost (Some m) i o cc cr r
  = Ok (qi * ri + qo * ro + qcc * rcc + qcr * rcr + qr * rr)%float.
Proof.
  intros Hm Hi Ho Hcc Hcr Hr Qi Qo Qcc Qcr Qr. unfold calculate_cost.
  destruct getitem_fallback as [fb ->]. simpl. rewrite Hm.
  unfold contribution, getitem.
  rewrite Hi, Ho, Hcc, Hcr, Hr, Qi, Qo, Qcc, Qcr, Qr. reflexivity.
Qed.

(** C2: a model identifier that is no key of the table, and [None], cost
    what the fallback model costs on the same usage; the subscript that
    reads the fallback entry succeeds, and that entry is the one the
    identifier resolves to. *)
Theorem calculate_cost_unknown_model (model_id : option string) (i o cc cr r : Z) :
  in_table model_id = false →
  (∃ fallback, getitem MODEL_PRICING "claude-sonnet-4-5" = Ok fallback
               ∧ dict_get MODEL_PRICING model_id fallback = fallback)
  ∧ calculate_cost model_id i o cc cr r
    = calculate_cost (Some "claude-sonnet-4-5") i o cc cr r.
Proof.
  intros Habsent.
  assert (∀ fb, dict_get MODEL_PRICING model_id fb = fb) as Hres.
  { intros fb. destruct model_id as [m|]; [|reflexivity].
    simpl in *. destruct (MODEL_PRICING !! m); [discriminate|reflexivity]. }
  destruct getitem_fallback as [fb Hfb]. split.
  - exists fb. split; [exact Hfb | apply Hres].
  - apply (calculate_cost_resolved _ _ fb); [exact Hfb|].
    rewrite Hres. unfold getitem in Hfb. simpl.
    destruct (MODEL_PRICING !! "claude-sonnet-4-5"); congruence.
Qed.

Lemma calculate_cost_unknown_model_witness :
  in_table (Some "gpt-4o") = false
  ∧ calculate_cost (Some "gpt-4o") 1000 500 20 30 7
    = calculate_cost (Some "claude-sonnet-4-5") 1000 500 20 30 7.
Proof.
  split; [reflexivity|].
  apply (calculate_cost_unknown_model (Some "gpt-4o")). reflexivity.
Defined.

(** An identifier that is no key of the table is priced as [None] is. *)
Lemma calculate_cost_absent (model_id : option string) (i o cc cr r : Z) :
  in_table model_id = false →
  calculate_cost model_id i o cc cr r = calculate_cost None i o cc cr r.
Proof.
  intros Habsent. destruct getitem_fallback as [fb Hfb].
  apply (calculate_cost_resolved _ _ fb); [exact Hfb|].
  destruct model_id as [m|]; [|reflexivity].
  simpl in *. destruct (MODEL_PRICING !! m); [discriminate|reflexivity].
Qed.

(** X1: The zero usage costs 0.0 under every identifier but the two Gemini
    ones, unknown identifiers and [None] included. *)
Lemma calculate_cost_zero_usage (model_id : option string) :
  model_id ≠ Some "google-gemini-3-flash" →
  model_id ≠ Some "google-gemini-3-pro" →
  calculate_cost model_id 0 0 0 0 0 = Ok 0%float.
Proof.
  intros Hflash Hpro.
  destruct (in_table model_id) eqn:Hin.
  - destruct model_id as [m|]; [|discriminate].
    destruct (MODEL_PRICING_keys m) as [Hm|Hm].
    + apply elem_of_cons in Hm as [->|Hm]; [vm_compute; reflexivity|].
      apply elem_of_cons in Hm as [->|Hm]; [vm_compute; reflexivity|].
      apply elem_of_cons in Hm as [->|Hm]; [vm_compute; reflexivity|].
      apply elem_of_cons in Hm as [->|Hm]; [by destruct Hflash|].
      apply elem_of_cons in Hm as [->|Hm]; [by destruct Hpro|].
      by apply elem_of_nil in Hm.
    + simpl in Hin. rewrite Hm in Hin. discriminate.
  - rewrite (calculate_cost_absent model_id 0 0 0 0 0 Hin).
    vm_compute. reflexivity.
Qed.

(** C1: on the Gemini entries, which leave out three rates,
    [calculate_cost] returns no cost: the subscript [cache_creation] raises
    [KeyError] where a missing rate was to count for zero. *)
Theorem calculate_cost_gemini_raises :
  calculate_cost (Some "google-gemini-3-flash") 1000 500 0 0 0
    = Raise (KeyError "cache_creation")
  ∧ calculate_cost (Some "google-gemini-3-pro") 1000 500 0 0 0
    = Raise (KeyError "cache_creation")
  ∧ ∀ i o cc cr r : Z,
      is_Ok (calculate_cost (Some "google-gemini-3-flash") i o cc cr r) = false
      ∧ is_Ok (calculate_cost (Some "google-gemini-3-pro") i o cc cr r) = false.
Proof.
  split; [vm_compute; reflexivity|]. split; [vm_compute; reflexivity|].
  intros i o cc cr r. split.
  - by eapply calculate_cost_missing_rate.
  - by eapply calculate_cost_missing_rate.
Qed.

(** C3: with zero tokens in every category, [calculate_cost] still raises
    [KeyError] on the two Gemini identifiers, where the cost was to be 0. *)
Theorem calculate_cost_zero_usage_gemini :
  calculate_cost (Some "google-gemini-3-flash") 0 0 0 0 0
    = Raise (KeyError "cache_creation")
  ∧ calculate_cost (Some "google-gemini-3-pro") 0 0 0 0 0
    = Raise (KeyError "cache_creation").
Proof. split; vm_compute; reflexivity. Qed.

(** C4: on a known model, here a Gemini one, neither the cost of a usage
    nor the cost of the usage with its input tokens doubled is returned:
    both calls raise [KeyError], so there is no total to be the sum of the
    five contributions. *)
Theorem calculate_cost_doubling_gemini :
  calculate_cost (Some "google-gemini-3-flash") 1000 0 0 0 0
    = Raise (KeyError "cache_creation")
  ∧ calculate_cost (Some "google-gemini-3-flash") 2000 0 0 0 0
    = Raise (KeyError "cache_creation").
Proof. split; vm_compute; reflexivity. Qed.

(** C5: no rate of the table is negative, and the fallback entry defines
    the five rates. *)
Theorem MODEL_PRICING_invariant :
  map_Forall (λ _ (entry : rates),
                map_Forall (λ _ rate, (0 <=? rate)%float = true) entry) MODEL_PRICING
  ∧ ∃ fallback, MODEL_PRICING !! "claude-sonnet-4-5" = Some fallback
      ∧ Forall (λ field, is_Some (fallback !! field))
          ["input"; "output"; "cache_creation"; "cache_read"; "reasoning"].
Proof.
  split.
  - apply (bool_decide_unpack _). vm_compute. exact I.
  - eexists. split; [reflexivity|].
    repeat constructor; eexists; reflexivity.
Qed.

End PricingFacts.

(** * Properties of the run controller *)

Module EngineerFacts.
Import Engineer.

Section Lifecycle.
Context `{env : Collaborators}.

Lemma set_sync_watcher_same (e : BaseEngineer) :
  set_sync_watcher (sync_watcher e) e = e.
Proof. destruct e; reflexivity. Qed.

(** C6: with [enable_sync] false, [start_sync] returns at once and leaves
    the whole state as it was: the controller, [sync_watcher] and
    [local_scripts_dir] included, the file system (no directory is
    allocated) and the calls made to watchers. *)
Theorem start_sync_disabled (s : State) :
  enable_sync (self s) = false → start_sync s = (Ok tt, s).
Proof.
  intros Hoff. unfold start_sync, mbind, M_mbind, M_bind, getattr.
  rewrite Hoff. reflexivity.
Qed.

(** C7: [stop_sync] never raises and always leaves [sync_watcher] at
    [None], so that a second call changes nothing; without a watcher it
    changes nothing at all; with one, [stop] is called on it, once, and an
    exception it raises goes to [sync_error] of the sink, nowhere else. *)
Theorem stop_sync_clears (s : State) :
  (stop_sync s).1 = Ok tt
  ∧ sync_watcher (self (stop_sync s).2) = None
  ∧ stop_sync (stop_sync s).2 = (Ok tt, (stop_sync s).2)
  ∧ (sync_watcher (self s) = None → stop_sync s = (Ok tt, s))
  ∧ (∀ w, sync_watcher (self s) = Some w →
       calls (stop_sync s).2 = calls s ++ [(Stop, w)]
       ∧ shown (ui (self (stop_sync s).2))
         = shown (ui (self s))
           ++ match (FileSyncWatcher_stop w).1 with
              | Ok _ => []
              | Raise e => [Error ("Failed to stop sync watcher: " +:+ exc_str e)]
              end).
Proof.
  unfold stop_sync, mbind, M_mbind, M_bind, getattr, try_except_finally,
    watcher_call, setattr, ui_call.
  destruct (sync_watcher (self s)) as [w|] eqn:Hw; simpl.
  - rewrite Hw. destruct (FileSyncWatcher_stop w) as [[[]|e] i] eqn:Hstop; simpl.
    all: split; [reflexivity|]. all: split; [reflexivity|].
    all: split; [reflexivity|]. all: split; [discriminate|].
    all: intros w' [= <-]; split; [reflexivity|]; rewrite Hstop; simpl.
    + by rewrite app_nil_r.
    + reflexivity.
  - rewrite Hw. simpl. repeat split; congruence.
Qed.

(** The allocator of the model hands out a directory that did not exist
    or was empty, the first such candidate in the order of the suffixes. *)
Lemma probe_first_free (fs : gmap string (list string)) (parent base_name : string)
    (fuel k : nat) (p : string) :
  probe fs parent base_name k fuel = Some p →
  is_free fs p = true
  ∧ ∃ j, k ≤ j < k + fuel
      ∧ p = Path_truediv parent (candidate base_name j)
      ∧ ∀ j', k ≤ j' < j →
          is_free fs (Path_truediv parent (candidate base_name j')) = false.
Proof.
  revert k. induction fuel as [|fuel IH]; intros k; simpl; [discriminate|].
  destruct (is_free fs (Path_truediv parent (candidate base_name k))) eqn:Hk.
  - intros [= <-]. split; [exact Hk|]. exists k.
    split; [lia|]. split; [reflexivity|]. intros j' ?. lia.
  - intros Hp. destruct (IH _ Hp) as (Hfree & j & Hj & -> & Hbefore).
    split; [exact Hfree|]. exists j.
    split; [lia|]. split; [reflexivity|]. intros j' Hj'. destruct (decide (j' = k)) as [->|Hne]; [exact Hk|].
    apply Hbefore. lia.
Qed.

(** Creating a directory leaves every existing directory with its entries. *)
Lemma mkdir_preserves (fs : gmap string (list string)) (p q : string)
    (entries : list string) :
  fs !! q = Some entries → mkdir p fs !! q = Some entries.
Proof.
  intros Hq. unfold mkdir. destruct (fs !! p) eqn:Hp; [exact Hq|].
  rewrite lookup_insert_ne; [exact Hq|]. intros ->. congruence.
Qed.

Lemma mkdir_exists (fs : gmap string (list string)) (p : string) :
  is_Some (mkdir p fs !! p).
Proof.
  unfold mkdir. destruct (fs !! p) eqn:Hp; [by rewrite Hp|].
  rewrite lookup_insert_eq. by eexists.
Qed.

Lemma get_available_directory_free (parent base_name : string) (s : State)
    (local_dir : string) :
  (get_available_directory parent base_name s).1 = Ok local_dir →
  is_free (fs s) local_dir = true
  ∧ get_available_directory parent base_name s
    = (Ok local_dir, with_fs (mkdir local_dir) s).
Proof.
  unfold get_available_directory.
  destruct (probe (fs s) parent base_name 1 probe_limit) as [p|] eqn:Hp;
    simpl; [|discriminate].
  intros [= <-]. split; [|reflexivity].
  by destruct (probe_first_free _ _ _ _ _ _ Hp).
Qed.

(** C8: with [enable_sync] true, and the name derivation, the allocator
    and the constructor returning normally, [start_sync] makes one watcher,
    with the scripts directory as source, the allocated directory as
    destination, a debounce of 500 ms and callbacks that hand their message
    to [sync_flash] and [sync_error] of the sink, stores it, and calls
    [start] on it; the destination is the allocator's answer for the base
    name derived from the prompt under [cwd/scripts], a directory that did
    not exist or was empty. *)
Theorem start_sync_enabled (s : State) (base_name local_dir : string)
    (i : WatcherInternals) :
  enable_sync (self s) = true →
  generate_folder_name (prompt (self s)) (sdk (self s)) = Ok base_name →
  (get_available_directory (Path_truediv (cwd s) "scripts") base_name s).1
    = Ok local_dir →
  FileSyncWatcher_init (scripts_dir (self s)) local_dir sync_flash sync_error 500
    = Ok i →
  let w := mkFileSyncWatcher (scripts_dir (self s)) local_dir
             sync_flash sync_error 500 i in
  let started := mkFileSyncWatcher (scripts_dir (self s)) local_dir
                   sync_flash sync_error 500 (FileSyncWatcher_start w).2 in
  let s' := (start_sync s).2 in
  (start_sync s).1 = (FileSyncWatcher_start w).1
  ∧ calls s' = calls s ++ [(Init, w); (Start, w)]
  ∧ sync_watcher (self s') = Some started
  ∧ local_scripts_dir (self s') = Some local_dir
  ∧ is_free (fs s) local_dir = true
  ∧ fs s' = mkdir local_dir (fs s)
  ∧ (∀ message sink,
       on_sync started message sink = notify (Flash message) sink
       ∧ on_error started message sink = notify (Error message) sink)
  ∧ shown (ui (self s'))
    = shown (ui (self s))
      ++ (if is_Ok (FileSyncWatcher_start w).1 then [Started local_dir] else []).
Proof.
  intros Hon Hname Hdir Hinit w started s'.
  apply get_available_directory_free in Hdir as [Hfree Hdir].
  subst s'. unfold start_sync, mbind, M_mbind, M_bind, getattr, call, Path_cwd.
  rewrite Hon. simpl. rewrite Hname. simpl. rewrite Hdir.
  unfold setattr, FileSyncWatcher_new. simpl.
  change (λ message : string, sync_flash message) with sync_flash.
  change (λ message : string, sync_error message) with sync_error.
  rewrite Hinit. unfold watcher_call. simpl. fold w.
  destruct (FileSyncWatcher_start w) as [[[]|e] i'] eqn:Hstart; subst started; simpl.
  - rewrite <- app_assoc. repeat split; done.
  - rewrite <- app_assoc, app_nil_r. repeat split; done.
Qed.

(** C10: [get_sync_status] returns [None] exactly when no watcher is
    held; with one it returns what that watcher's [get_status] returns
    (or raises what it raises), the controller having the same attribute
    values afterwards and holding the same watcher. *)
Theorem get_sync_status_held (s : State) :
  ((get_sync_status s).1 = Ok None ↔ sync_watcher (self s) = None)
  ∧ (sync_watcher (self s) = None → get_sync_status s = (Ok None, s))
  ∧ (∀ w, sync_watcher (self s) = Some w →
       (get_sync_status s).1
         = match (FileSyncWatcher_get_status w).1 with
           | Ok status => Ok (Some status)
           | Raise e => Raise e
           end
       ∧ self (get_sync_status s).2
         = set_sync_watcher
             (Some (mkFileSyncWatcher (source_dir w) (dest_dir w) (on_sync w)
                      (on_error w) (debounce_ms w) (FileSyncWatcher_get_status w).2))
             (self s)
       ∧ ((FileSyncWatcher_get_status w).2 = internals w →
            self (get_sync_status s).2 = self s)
       ∧ fs (get_sync_status s).2 = fs s
       ∧ calls (get_sync_status s).2 = calls s ++ [(GetStatus, w)]).
Proof.
  unfold get_sync_status, mbind, M_mbind, M_bind, getattr, watcher_call.
  destruct (sync_watcher (self s)) as [w|] eqn:Hw; simpl.
  - rewrite Hw.
    destruct (FileSyncWatcher_get_status w) as [[status|e] i] eqn:Hstatus; simpl.
    all: split; [split; discriminate|]; split; [discriminate|].
    all: intros w' [= <-]; rewrite Hstatus; simpl.
    all: repeat split; try reflexivity.
    all: intros ->; destruct w; simpl; rewrite <- Hw; apply set_sync_watcher_same.
  - repeat split; try reflexivity; try discriminate.
Qed.

(** *** The prompt *)

Lemma append_assoc (a b c : string) : (a +:+ b) +:+ c = a +:+ (b +:+ c).
Proof.
  induction a as [|x a IH]; [reflexivity|].
  change (String x ((a +:+ b) +:+ c) = String x (a +:+ (b +:+ c))).
  by rewrite IH.
Qed.

Lemma strip_prefix_sound (p s rest : string) :
  strip_prefix p s = Some rest → s = p +:+ rest.
Proof.
  revert s. induction p as [|a p IH]; intros [|b s]; simpl; try discriminate.
  - by intros [= <-].
  - by intros [= <-].
  - destruct (Ascii.eqb a b) eqn:Hab; [|discriminate].
    apply Ascii.eqb_eq in Hab as ->. intros Hs.
    change (String b s = String b (p +:+ rest)). by rewrite <- (IH s Hs).
Qed.

Lemma find_sound (needle text before rest : string) :
  find needle text = Some (before, rest) → contains text needle.
Proof.
  revert before rest. induction text as [|c text IH]; intros before rest; simpl.
  - destruct (strip_prefix needle "") as [r|] eqn:Hp; [|discriminate].
    intros _. exists "", r. exact (strip_prefix_sound _ _ _ Hp).
  - destruct (strip_prefix needle (String c text)) as [r|] eqn:Hp.
    + intros _. exists "", r. exact (strip_prefix_sound _ _ _ Hp).
    + destruct (find needle text) as [[b r]|] eqn:Hf; [|discriminate].
      intros _. destruct (IH _ _ eq_refl) as (b' & r' & ->).
      by exists (String c b'), r'.
Qed.

Lemma contains_append_l (t u needle : string) :
  contains t needle → contains (t +:+ u) needle.
Proof.
  intros (b & r & ->). exists b, (r +:+ u). by rewrite !append_assoc.
Qed.

Lemma contains_append_r (t u needle : string) :
  contains u needle → contains (t +:+ u) needle.
Proof.
  intros (b & r & ->). exists (t +:+ b), r. by rewrite !append_assoc.
Qed.

(** Whatever the controller, the prompt holds the guidance text whole. *)
Lemma _build_analysis_prompt_guidance (self : BaseEngineer) (needle : string) :
  contains ask_user_question_guidance needle →
  contains (_build_analysis_prompt self) needle.
Proof.
  intros Hc. unfold _build_analysis_prompt.
  apply contains_append_l, contains_append_r, Hc.
Qed.

(** C9: the prompt documents the AskUserQuestion contract: the tool takes
    a list of questions; [question] is required, [header] optional,
    [options] required and a list of choices with a label and a
    description each, [multiSelect] a boolean that defaults to false. *)
Theorem _build_analysis_prompt_contract (self : BaseEngineer) :
  Forall (contains (_build_analysis_prompt self))
    [ "The tool accepts a list of questions with the following structure:";
      "  " +:+ quoted "questions" +:+ ": [";
      "Question Structure:
- `question` (required): The question text
- `header` (optional): Short category label for context
- `options` (required): List of choices with labels and descriptions
- `multiSelect` (optional): true for checkbox selection, false for single select (default: false)
";
      "      " +:+ quoted "options" +:+ ": [
        {" +:+ quoted "label" +:+ ": " +:+ quoted "Cookie-based session"
        +:+ ", " +:+ quoted "description" +:+ ": "
        +:+ quoted "Uses session cookies for auth" +:+ "},";
      "      " +:+ quoted "multiSelect" +:+ ": false" ].
Proof.
  repeat constructor; apply _build_analysis_prompt_guidance.
  all: match goal with
       | |- contains ?t ?n =>
           let r := eval vm_compute in (find n t) in
           match r with
           | Some (?b, ?rest) => apply (find_sound n t b rest); vm_compute; reflexivity
           end
       end.
Qed.

End Lifecycle.

Lemma start_sync_disabled_witness :
  enable_sync (self (example_state (Ok tt) false)) = false
  ∧ start_sync (example_state (Ok tt) false) = (Ok tt, example_state (Ok tt) false).
Proof.
  split; [reflexivity|].
  apply (@start_sync_disabled (stand_in (Ok tt)) (example_state (Ok tt) false)).
  reflexivity.
Defined.

Lemma start_sync_enabled_witness :
  enable_sync (self (example_state (Ok tt) true)) = true
  ∧ (start_sync (example_state (Ok tt) true)).1 = Ok tt
  ∧ local_scripts_dir (self (start_sync (example_state (Ok tt) true)).2)
    = Some "/work/scripts/claude-client-2"
  ∧ fs (start_sync (example_state (Ok tt) true)).2
    = mkdir "/work/scripts/claude-client-2" (fs (example_state (Ok tt) true)).
Proof.
  split; [reflexivity|].
  destruct (@start_sync_enabled (stand_in (Ok tt)) (example_state (Ok tt) true)
              "claude-client" "/work/scripts/claude-client-2" 0%nat)
    as (Hres & _ & _ & Hdir & _ & Hfs & _).
  - reflexivity.
  - reflexivity.
  - vm_compute. reflexivity.
  - reflexivity.
  - split; [exact Hres|]. split; [exact Hdir | exact Hfs].
Defined.

End EngineerFacts.

(** * Further properties of the cost accounting *)

Module PricingEdgeCases.
Import Pricing.


(** X3: An exception raised by the division of the input tokens is the one
    that comes out, whatever the model and the other counts: it is
    evaluated before any rate is read. *)
Theorem calculate_cost_first_division_raises (model_id : option string)
    (i o cc cr r : Z) (e : PricingError) :
  int_truediv i 1000000 = Raise e →
  calculate_cost model_id i o cc cr r = Raise e.
Proof.
  intros Hdiv. unfold calculate_cost.
  destruct PricingFacts.getitem_fallback as [fb ->].
  unfold contribution, mbind, result_mbind, result_bind.
  rewrite Hdiv. reflexivity.
Qed.

Lemma calculate_cost_first_division_raises_witness :
  int_truediv (10 ^ 400) 1000000
    = Raise (OverflowError "integer division result too large for a float")
  ∧ calculate_cost (Some "google-gemini-3-flash") (10 ^ 400) 0 0 0 0
    = Raise (OverflowError "integer division result too large for a float").
Proof.
  split; [vm_compute; reflexivity|].
  apply (calculate_cost_first_division_raises
           (Some "google-gemini-3-flash") (10 ^ 400) 0 0 0 0).
  vm_compute. reflexivity.
Defined.

(** X2: A known model whose entry leaves out any of the five rates gets no
    cost, for no usage: some term of the sum raises. *)
Theorem calculate_cost_incomplete_entry (m : string) (entry : rates) (key : string)
    (i o cc cr r : Z) :
  MODEL_PRICING !! m = Some entry →
  key ∈ ["input"; "output"; "cache_creation"; "cache_read"; "reasoning"] →
  entry !! key = None →
  is_Ok (calculate_cost (Some m) i o cc cr r) = false.
Proof.
  intros Hm Hkey Hnone. unfold calculate_cost.
  destruct PricingFacts.getitem_fallback as [fb ->]. simpl. rewrite Hm.
  unfold mbind, result_mbind.
  assert (∀ tokens, is_Ok (contribution tokens entry key) = false) as Hc
    by (intros; by apply PricingFacts.contribution_missing_rate).
  repeat (apply elem_of_cons in Hkey as [->|Hkey];
    [ repeat match goal with
        | |- context [result_bind (contribution ?t entry ?k) _] =>
            let H := fresh in
            pose proof (Hc t) as H;
            destruct (contribution t entry k); simpl in H |- *;
            [ first [discriminate H | clear H] | reflexivity ]
        end | ]).
  by apply elem_of_nil in Hkey.
Qed.

Lemma calculate_cost_incomplete_entry_witness :
  is_Ok (calculate_cost (Some "google-gemini-3-pro") 1200 300 0 40 0) = false.
Proof.
  apply (calculate_cost_incomplete_entry "google-gemini-3-pro"
           (<["input" := 0.0003%float]> (<["output" := 0.0012%float]> ∅))
           "reasoning").
  - reflexivity.
  - set_solver.
  - reflexivity.
Defined.

Lemma calculate_cost_zero_usage_witness :
  calculate_cost (Some "claude-haiku-4-5") 0 0 0 0 0 = Ok 0%float
  ∧ calculate_cost (Some "no-such-model") 0 0 0 0 0 = Ok 0%float
  ∧ calculate_cost None 0 0 0 0 0 = Ok 0%float.
Proof.
  split; [|split].
  - apply (PricingFacts.calculate_cost_zero_usage (Some "claude-haiku-4-5"));
      intros [=].
  - apply (PricingFacts.calculate_cost_zero_usage (Some "no-such-model"));
      intros [=].
  - apply (PricingFacts.calculate_cost_zero_usage None); intros [=].
Defined.

End PricingEdgeCases.

(** * Further properties of the run controller *)

Module EngineerScenarios.
Import Engineer.

Section Scenarios.
Context `{env : Collaborators}.

(** What [stop_sync] does to a state that holds a watcher. *)
Lemma stop_sync_run (s : State) (w : FileSyncWatcher WatcherInternals) :
  sync_watcher (self s) = Some w →
  let stopped := mkFileSyncWatcher (source_dir w) (dest_dir w) (on_sync w)
                   (on_error w) (debounce_ms w) (FileSyncWatcher_stop w).2 in
  let s1 := with_self (set_sync_watcher (Some stopped)) (record_call Stop w s) in
  stop_sync s
  = (Ok tt,
     with_self (set_sync_watcher None)
       match (FileSyncWatcher_stop w).1 with
       | Ok _ => s1
       | Raise e =>
           with_self
             (λ c, set_ui (sync_error ("Failed to stop sync watcher: " +:+ exc_str e)
                             (ui c)) c) s1
       end).
Proof.
  intros Hw. unfold stop_sync, mbind, M_mbind, M_bind, getattr, try_except_finally,
    watcher_call, setattr, ui_call.
  rewrite Hw. simpl. rewrite Hw.
  destruct (FileSyncWatcher_stop w) as [[[]|e] i]; reflexivity.
Qed.

(** What [start_sync] does when the name derivation, the allocator and
    the constructor return. *)
Lemma start_sync_run (s : State) (base_name local_dir : string) (i : WatcherInternals) :
  enable_sync (self s) = true →
  generate_folder_name (prompt (self s)) (sdk (self s)) = Ok base_name →
  (get_available_directory (Path_truediv (cwd s) "scripts") base_name s).1
    = Ok local_dir →
  FileSyncWatcher_init (scripts_dir (self s)) local_dir sync_flash sync_error 500
    = Ok i →
  let w := mkFileSyncWatcher (scripts_dir (self s)) local_dir
             sync_flash sync_error 500 i in
  let started := mkFileSyncWatcher (scripts_dir (self s)) local_dir
                   sync_flash sync_error 500 (FileSyncWatcher_start w).2 in
  let s1 := with_self (set_local_scripts_dir (Some local_dir))
              (with_fs (mkdir local_dir) s) in
  let s2 := with_self (set_sync_watcher (Some w)) (record_call Init w s1) in
  let s3 := with_self (set_sync_watcher (Some started)) (record_call Start w s2) in
  start_sync s
  = match (FileSyncWatcher_start w).1 with
    | Ok _ => (Ok tt, with_self (λ c, set_ui (sync_started local_dir (ui c)) c) s3)
    | Raise e => (Raise e, s3)
    end.
Proof.
  intros Hon Hname Hdir Hinit w started s1 s2 s3.
  apply EngineerFacts.get_available_directory_free in Hdir as [_ Hdir].
  unfold start_sync, mbind, M_mbind, M_bind, getattr, call, Path_cwd.
  rewrite Hon. simpl. rewrite Hname. simpl. rewrite Hdir.
  unfold setattr, FileSyncWatcher_new. simpl.
  change (λ message : string, sync_flash message) with sync_flash.
  change (λ message : string, sync_error message) with sync_error.
  rewrite Hinit. unfold watcher_call. simpl. fold w.
  destruct (FileSyncWatcher_start w) as [[[]|e] i']; reflexivity.
Qed.

(** X5: With synchronisation enabled, an exception of the name derivation
    comes out of [start_sync] and nothing has changed: no directory, no
    watcher, no notification. *)
Theorem start_sync_name_error (s : State) (e : Exception) :
  enable_sync (self s) = true →
  generate_folder_name (prompt (self s)) (sdk (self s)) = Raise e →
  start_sync s = (Raise e, s).
Proof.
  intros Hon Hname. unfold start_sync, mbind, M_mbind, M_bind, getattr, call.
  rewrite Hon. simpl. rewrite Hname. reflexivity.
Qed.

(** X6: An exception of the watcher's constructor comes out of [start_sync]
    after [local_scripts_dir] was assigned and the directory allocated:
    the controller then names a local directory and holds the watcher it
    held before, and no call or notification was made. *)
Theorem start_sync_constructor_error (s : State) (base_name local_dir : string)
    (e : Exception) :
  enable_sync (self s) = true →
  generate_folder_name (prompt (self s)) (sdk (self s)) = Ok base_name →
  (get_available_directory (Path_truediv (cwd s) "scripts") base_name s).1
    = Ok local_dir →
  FileSyncWatcher_init (scripts_dir (self s)) local_dir sync_flash sync_error 500
    = Raise e →
  (start_sync s).1 = Raise e
  ∧ local_scripts_dir (self (start_sync s).2) = Some local_dir
  ∧ sync_watcher (self (start_sync s).2) = sync_watcher (self s)
  ∧ fs (start_sync s).2 = mkdir local_dir (fs s)
  ∧ calls (start_sync s).2 = calls s
  ∧ ui (self (start_sync s).2) = ui (self s).
Proof.
  intros Hon Hname Hdir Hinit.
  apply EngineerFacts.get_available_directory_free in Hdir as [_ Hdir].
  unfold start_sync, mbind, M_mbind, M_bind, getattr, call, Path_cwd.
  rewrite Hon. simpl. rewrite Hname. simpl. rewrite Hdir.
  unfold setattr, FileSyncWatcher_new. simpl.
  change (λ message : string, sync_flash message) with sync_flash.
  change (λ message : string, sync_error message) with sync_error.
  rewrite Hinit. simpl. repeat split; reflexivity.
Qed.

(** X7: Whatever happens, [start_sync] calls nothing of a watcher but the
    constructor and [start], at most once each: a watcher already held is
    never stopped by it. *)
Theorem start_sync_never_stops (s : State) :
  ∃ made, calls (start_sync s).2 = calls s ++ made
          ∧ Forall (λ c, c.1 = Init ∨ c.1 = Start) made
          ∧ length made ≤ 2.
Proof.
  unfold start_sync, mbind, M_mbind, M_bind, getattr, call, Path_cwd.
  destruct (enable_sync (self s)); simpl;
    [|exists []; rewrite app_nil_r; split; [reflexivity|]; split; [constructor | simpl; lia]].
  destruct (generate_folder_name _ _) as [base_name|e]; simpl;
    [|exists []; rewrite app_nil_r; split; [reflexivity|]; split; [constructor | simpl; lia]].
  unfold get_available_directory.
  destruct (probe _ _ _ _ _) as [local_dir|]; simpl;
    [|exists []; rewrite app_nil_r; split; [reflexivity|]; split; [constructor | simpl; lia]].
  unfold setattr, FileSyncWatcher_new. simpl.
  destruct (FileSyncWatcher_init _ _ _ _ _) as [i|e]; simpl;
    [|exists []; rewrite app_nil_r; split; [reflexivity|]; split; [constructor | simpl; lia]].
  unfold watcher_call. simpl.
  match goal with
  | |- context [FileSyncWatcher_start ?w] =>
      exists [(Init, w); (Start, w)];
      destruct (FileSyncWatcher_start w) as [[[]|e] i']; simpl
  end.
  all: rewrite <- app_assoc; (split; [reflexivity|]);
    (split; [|simpl; lia]);
    repeat first [apply Forall_nil_2 | apply Forall_cons_2]; simpl; auto.
Qed.

(** X8: [stop_sync] touches nothing but [sync_watcher] and the sink: the file
    system, the working directory and the other attributes stay, and
    [local_scripts_dir] goes on naming the directory of the last start. *)
Theorem stop_sync_frame (s : State) :
  fs (stop_sync s).2 = fs s
  ∧ cwd (stop_sync s).2 = cwd s
  ∧ local_scripts_dir (self (stop_sync s).2) = local_scripts_dir (self s)
  ∧ self (stop_sync s).2
    = set_sync_watcher None (set_ui (ui (self (stop_sync s).2)) (self s)).
Proof.
  destruct (sync_watcher (self s)) as [w|] eqn:Hw.
  - rewrite (stop_sync_run s w Hw).
    destruct (FileSyncWatcher_stop w) as [[[]|e] i]; simpl;
      destruct s as [[] ? ? ?]; simpl; repeat split; reflexivity.
  - unfold stop_sync, mbind, M_mbind, M_bind, getattr. rewrite Hw. simpl.
    destruct s as [[] ? ? ?]; simpl in *; subst; repeat split; reflexivity.
Qed.

(** X9: On a controller fresh from [__init__], whatever its arguments and the
    state around it, [stop_sync] is a no-op and [get_sync_status] returns
    [None], both leaving the state as it is. *)
Theorem stop_sync_before_start (run_id har_path prompt : string)
    (model additional_instructions output_dir : option string)
    (verbose enable_sync : bool) (sdk : string) (is_fresh : bool)
    (cwd : string) (fs : gmap string (list string))
    (calls : list (WatcherMethod * FileSyncWatcher WatcherInternals)) :
  let s := {| self := __init__ run_id har_path prompt model additional_instructions
                        output_dir verbose enable_sync sdk is_fresh;
              cwd := cwd; fs := fs; calls := calls |} in
  stop_sync s = (Ok tt, s) ∧ get_sync_status s = (Ok None, s).
Proof. split; reflexivity. Qed.

(** X10: A start followed by a stop: the watcher made by [start_sync] is the
    one [stop] is called on, also when its [start] raised; afterwards no
    watcher is held, and [local_scripts_dir] still names the allocated
    directory, which the stop leaves in place. *)
Theorem start_then_stop (s : State) (base_name local_dir : string)
    (i : WatcherInternals) :
  enable_sync (self s) = true →
  generate_folder_name (prompt (self s)) (sdk (self s)) = Ok base_name →
  (get_available_directory (Path_truediv (cwd s) "scripts") base_name s).1
    = Ok local_dir →
  FileSyncWatcher_init (scripts_dir (self s)) local_dir sync_flash sync_error 500
    = Ok i →
  let w := mkFileSyncWatcher (scripts_dir (self s)) local_dir
             sync_flash sync_error 500 i in
  let started := mkFileSyncWatcher (scripts_dir (self s)) local_dir
                   sync_flash sync_error 500 (FileSyncWatcher_start w).2 in
  let s' := (stop_sync (start_sync s).2).2 in
  (stop_sync (start_sync s).2).1 = Ok tt
  ∧ calls s' = calls s ++ [(Init, w); (Start, w); (Stop, started)]
  ∧ sync_watcher (self s') = None
  ∧ local_scripts_dir (self s') = Some local_dir
  ∧ fs s' = mkdir local_dir (fs s).
Proof.
  intros Hon Hname Hdir Hinit w started s'. subst s'.
  rewrite (start_sync_run s base_name local_dir i Hon Hname Hdir Hinit).
  fold w. fold started.
  destruct (FileSyncWatcher_start w) as [[[]|e] i'] eqn:Hstart; simpl.
  all: erewrite stop_sync_run by reflexivity.
  all: simpl; destruct (FileSyncWatcher_stop _) as [[[]|e'] i'']; simpl.
  all: rewrite <- !app_assoc; repeat split; reflexivity.
Qed.

(** *** The prompt *)

Lemma contains_between (l1 v l2 rest p a b q : string) :
  l1 = p +:+ a → l2 = b +:+ q →
  contains (l1 +:+ v +:+ l2 +:+ rest) (a +:+ v +:+ b).
Proof.
  intros -> ->. exists p, (q +:+ rest).
  by rewrite !EngineerFacts.append_assoc.
Qed.

Lemma contains_between_end (l1 v l2 p a b q : string) :
  l1 = p +:+ a → l2 = b +:+ q →
  contains (l1 +:+ v +:+ l2) (a +:+ v +:+ b).
Proof.
  intros -> ->. exists p, q. by rewrite !EngineerFacts.append_assoc.
Qed.

(** What stands in the first f-string, or in [tag_context], stands in the
    prompt. *)
Lemma _build_analysis_prompt_base (self : BaseEngineer) (needle : string) :
  contains (base_prompt_text self) needle →
  contains (_build_analysis_prompt self) needle.
Proof.
  intros Hc. unfold _build_analysis_prompt.
  destruct (additional_instructions self) as [text|]; [case_bool_decide|].
  - do 2 apply EngineerFacts.contains_append_l. exact Hc.
  - do 3 apply EngineerFacts.contains_append_l. exact Hc.
  - do 2 apply EngineerFacts.contains_append_l. exact Hc.
Qed.

Lemma _build_analysis_prompt_tag (self : BaseEngineer) (needle : string) :
  contains (tag_context_text self) needle →
  contains (_build_analysis_prompt self) needle.
Proof.
  intros Hc. unfold _build_analysis_prompt.
  by apply EngineerFacts.contains_append_r.
Qed.

Ltac around :=
  lazymatch goal with
  | |- contains (?l1 +:+ ?v +:+ ?l2 +:+ ?rest) (?a +:+ ?v +:+ ?b) =>
      let p := eval vm_compute in
        (String.substring 0 (String.length l1 - String.length a) l1) in
      let q := eval vm_compute in
        (String.substring (String.length b) (String.length l2 - String.length b) l2) in
      apply (contains_between l1 v l2 rest p a b q); vm_compute; reflexivity
  | |- contains (?l1 +:+ ?v +:+ ?l2) (?a +:+ ?v +:+ ?b) =>
      let p := eval vm_compute in
        (String.substring 0 (String.length l1 - String.length a) l1) in
      let q := eval vm_compute in
        (String.substring (String.length b) (String.length l2 - String.length b) l2) in
      apply (contains_between_end l1 v l2 p a b q); vm_compute; reflexivity
  end.

(** X11: The prompt carries the HAR path, the user's prompt and the scripts
    directory between their tags, as they are, and names the two files to
    write under the scripts directory. *)
Theorem _build_analysis_prompt_embeds (self : BaseEngineer) :
  Forall (contains (_build_analysis_prompt self))
    [ "<har_path>
" +:+ har_path self +:+ "
</har_path>";
      "<user_prompt>
" +:+ prompt self +:+ "
</user_prompt>";
      "<output_dir>
" +:+ scripts_dir self +:+ "
</output_dir>";
      "1. Save the Python script to: " +:+ scripts_dir self +:+ "/api_client.py
";
      "2. Save the documentation to: " +:+ scripts_dir self +:+ "/README.md
" ].
Proof.
  repeat first [apply Forall_nil_2 | apply Forall_cons_2];
    apply _build_analysis_prompt_base; unfold base_prompt_text.
  - around.
  - do 2 apply EngineerFacts.contains_append_r. around.
  - do 4 apply EngineerFacts.contains_append_r. around.
  - do 6 apply EngineerFacts.contains_append_r. around.
  - do 8 apply EngineerFacts.contains_append_r. around.
Qed.

(** X12: The tag context at the end of the prompt names the run, the parent
    directories of the HAR file and of the message history, and the fresh
    mode as [true] or [false] in lower case. *)
Theorem _build_analysis_prompt_tag_context (self : BaseEngineer) :
  Forall (contains (_build_analysis_prompt self))
    [ "  - Target run: " +:+ run_id self +:+ "
";
      "  - HAR location: " +:+ Path_parent (har_path self) +:+ "
";
      "  - Message history: "
        +:+ Path_parent (messages_path (message_store self))
        +:+ " (available for reference if needed)
";
      "  - Fresh mode: " +:+ (if is_fresh self then "true" else "false") +:+ "
" ].
Proof.
  repeat first [apply Forall_nil_2 | apply Forall_cons_2];
    apply _build_analysis_prompt_tag; unfold tag_context_text.
  - around.
  - do 2 apply EngineerFacts.contains_append_r. around.
  - do 6 apply EngineerFacts.contains_append_r. around.
  - do 8 apply EngineerFacts.contains_append_r.
    destruct (is_fresh self); cbv iota.
    + change (lower (str_bool true)) with "true". around.
    + change (lower (str_bool false)) with "false". around.
Qed.

(** X13: Additional instructions that are [None] or the empty string add
    nothing to the prompt. *)
Theorem _build_analysis_prompt_no_instructions (self : BaseEngineer) :
  additional_instructions self = None ∨ additional_instructions self = Some "" →
  _build_analysis_prompt self
  = (base_prompt_text self +:+ ask_user_question_guidance) +:+ tag_context_text self.
Proof.
  intros [H|H]; unfold _build_analysis_prompt; rewrite H; [reflexivity|].
  by rewrite bool_decide_eq_true_2.
Qed.

(** X14: Additional instructions that are not empty stand in the prompt under
    their heading, between the first f-string and the guidance on
    AskUserQuestion. *)
Theorem _build_analysis_prompt_instructions (self : BaseEngineer) (text : string) :
  additional_instructions self = Some text → text ≠ "" →
  _build_analysis_prompt self
  = base_prompt_text self
    +:+ "

Additional instructions:
" +:+ text +:+ ask_user_question_guidance +:+ tag_context_text self.
Proof.
  intros H Hne. unfold _build_analysis_prompt. rewrite H.
  rewrite bool_decide_eq_false_2 by done.
  unfold additional_instructions_text.
  by rewrite !EngineerFacts.append_assoc.
Qed.

(** X15: The prompt reads nothing of the controller but the run id, the HAR
    path, the user's prompt, the additional instructions, the scripts
    directory, the message store and the fresh flag: the model, the sdk
    and the state of the synchronisation do not show in it. *)
Theorem _build_analysis_prompt_reads (self self' : BaseEngineer) :
  run_id self = run_id self' →
  har_path self = har_path self' →
  prompt self = prompt self' →
  additional_instructions self = additional_instructions self' →
  scripts_dir self = scripts_dir self' →
  message_store self = message_store self' →
  is_fresh self = is_fresh self' →
  _build_analysis_prompt self = _build_analysis_prompt self'.
Proof.
  intros Hid Hhar Hprompt Hadd Hdir Hstore Hfresh.
  unfold _build_analysis_prompt, base_prompt_text, tag_context_text.
  by rewrite Hid, Hhar, Hprompt, Hadd, Hdir, Hstore, Hfresh.
Qed.

End Scenarios.

Lemma start_sync_name_error_witness :
  let e := mkException "ValueError" "empty prompt" in
  start_sync (faulty_state (Raise e) (Ok 0%nat))
  = (Raise e, faulty_state (Raise e) (Ok 0%nat)).
Proof.
  intros e.
  apply (@start_sync_name_error (faulty_stand_in (Raise e) (Ok 0%nat))
           (faulty_state (Raise e) (Ok 0%nat)) e); reflexivity.
Defined.

Lemma start_sync_constructor_error_witness :
  let e := mkException "OSError" "inotify watch limit reached" in
  let s := faulty_state (Ok "orders") (Raise e) in
  (start_sync s).1 = Raise e
  ∧ local_scripts_dir (self (start_sync s).2) = Some "/work/scripts/orders"
  ∧ sync_watcher (self (start_sync s).2) = None.
Proof.
  intros e s.
  destruct (@start_sync_constructor_error (faulty_stand_in (Ok "orders") (Raise e))
              s "orders" "/work/scripts/orders" e)
    as (Hres & Hdir & Hw & _); try reflexivity.
  split; [exact Hres|]. split; [exact Hdir | exact Hw].
Defined.

Lemma start_then_stop_witness :
  let e := mkException "RuntimeError" "observer thread still alive" in
  let s := example_state (Raise e) true in
  (stop_sync (start_sync s).2).1 = Ok tt
  ∧ sync_watcher (self (stop_sync (start_sync s).2).2) = None
  ∧ local_scripts_dir (self (stop_sync (start_sync s).2).2)
    = Some "/work/scripts/claude-client-2".
Proof.
  intros e s.
  destruct (@start_then_stop (stand_in (Raise e)) s
              "claude-client" "/work/scripts/claude-client-2" 0%nat)
    as (Hres & _ & Hw & Hdir & _); try reflexivity.
  split; [exact Hres|]. split; [exact Hw | exact Hdir].
Defined.

Lemma _build_analysis_prompt_no_instructions_witness :
  additional_instructions (example_engineer (Ok tt) true) = None
  ∧ _build_analysis_prompt (example_engineer (Ok tt) true)
    = (base_prompt_text (example_engineer (Ok tt) true) +:+ ask_user_question_guidance)
      +:+ tag_context_text (example_engineer (Ok tt) true).
Proof.
  split; [reflexivity|].
  apply (@_build_analysis_prompt_no_instructions (stand_in (Ok tt))
           (example_engineer (Ok tt) true)).
  left. reflexivity.
Defined.

Lemma _build_analysis_prompt_instructions_witness :
  let self := self (faulty_state (Ok "orders") (Ok 0%nat)) in
  additional_instructions self = Some "Use httpx."
  ∧ _build_analysis_prompt self
    = base_prompt_text self
      +:+ "

Additional instructions:
" +:+ "Use httpx." +:+ ask_user_question_guidance +:+ tag_context_text self.
Proof.
  intros self. split; [reflexivity|].
  apply (@_build_analysis_prompt_instructions (faulty_stand_in (Ok "orders") (Ok 0%nat))
           self "Use httpx."); [reflexivity | discriminate].
Defined.

Lemma _build_analysis_prompt_reads_witness :
  enable_sync (example_engineer (Ok tt) true)
    ≠ enable_sync (example_engineer (Ok tt) false)
  ∧ _build_analysis_prompt (example_engineer (Ok tt) true)
    = _build_analysis_prompt (example_engineer (Ok tt) false).
Proof.
  split; [discriminate|].
  apply (@_build_analysis_prompt_reads (stand_in (Ok tt))
           (example_engineer (Ok tt) true) (example_engineer (Ok tt) false));
    reflexivity.
Defined.

End EngineerScenarios.
